(** * failman: build joiner, failure classifier, report renderer and main loop

    Shallow embedding of [failman.py].  Python [str] values are modelled as
    [string]; each character is read as a Unicode code point below 256
    (Latin-1), so Python's code-point comparison is [String.compare] and
    [str.lower] is [py_lower] below.  JSON objects coming from the CI API are
    records whose optional keys are [option] fields; [None] is Python's
    [None]. *)

From Stdlib Require Import ZArith Ascii String List Sorting.Sorted Sorting.Permutation
  Numbers.DecimalString.
From stdpp Require Import base gmap list strings.
Import ListNotations.

Local Open Scope string_scope.

(* ------------------------------------------------------------------ *)
(** ** Python helpers *)

(** [str.lower] on code points below 256: A-Z and the Latin-1 capitals
    U+00C0..U+00DE except U+00D7 (multiplication sign) move up by 32. *)
Definition py_lower_char (c : ascii) : ascii :=
  let n := nat_of_ascii c in
  if ((65 <=? n) && (n <=? 90))%nat
     || ((192 <=? n) && (n <=? 222) && negb (n =? 215))%nat
  then ascii_of_nat (n + 32)
  else c.

Fixpoint py_lower (s : string) : string :=
  match s with
  | EmptyString => EmptyString
  | String c s' => String (py_lower_char c) (py_lower s')
  end.

(** [str(n)] for a Python [int]. *)
Definition py_str_int (n : Z) : string :=
  NilEmpty.string_of_int (Z.to_int n).

(** f-string / [str()] of a value that is an [int] or [None]. *)
Definition py_str_opt_int (o : option Z) : string :=
  match o with Some n => py_str_int n | None => "None" end.

(** f-string / [str()] of a value that is a [str] or [None]. *)
Definition py_str_opt (o : option string) : string :=
  match o with Some s => s | None => "None" end.

(** [sep.join(parts)]. *)
Fixpoint py_join (sep : string) (parts : list string) : string :=
  match parts with
  | [] => EmptyString
  | [p] => p
  | p :: ps => p +:+ sep +:+ py_join sep ps
  end.

(** The double-quote character. *)
Definition dq : string := String (ascii_of_nat 34) EmptyString.

(* ------------------------------------------------------------------ *)
(** ** Data model *)

(** [@dataclass class Build]: the report row.  [status] is annotated [str]
    but [join_builders_with_change] stores [build_data.get("state_string")]
    there, which is [None] when the key is absent. *)
Record Build := mkBuild {
  name : string;
  url : string;
  commit : string;
  branch : string;
  status : option string
}.

(** A builder object of [GET /builders]: [{"builderid": .., "name": ..}]. *)
Record Builder := mkBuilder {
  builderid : Z;
  bname : string
}.

(** A build object of a change: [{"builderid", "number"?, "state_string"?}]. *)
Record BuildRec := mkBuildRec {
  rec_builderid : Z;
  number : option Z;
  state_string : option string
}.

(** Number of keys of a build object, for Python's truthiness of a dict. *)
Definition dict_size (r : BuildRec) : nat :=
  1 + (if number r then 1 else 0) + (if state_string r then 1 else 0).

Definition dict_truthy (r : BuildRec) : bool := negb (Nat.eqb (dict_size r) 0).

(* ------------------------------------------------------------------ *)
(** ** join_builders_with_change *)

(** [build_map = {b["builderid"]: b for b in builds}]: inserted in order,
    a later build object overwrites an earlier one with the same key. *)
Definition build_map (builds : list BuildRec) : gmap Z BuildRec :=
  foldl (fun m b => <[rec_builderid b := b]> m) ∅ builds.

(** The [Build(...)] constructed for a builder and its build object. *)
Definition mk_row (builder : Builder) (build_data : BuildRec)
    (br revision buildbot_url : string) : Build :=
  {| name := bname builder;
     branch := br;
     commit := revision;
     url := buildbot_url +:+ "#/builders/" +:+ py_str_int (builderid builder)
              +:+ "/builds/" +:+ py_str_opt_int (number build_data);
     status := state_string build_data |}.

(** The loop body: [build_data = build_map.get(builderid)]; [if build_data:]
    append. *)
Definition join_step (m : gmap Z BuildRec) (br revision buildbot_url : string)
    (acc : list Build) (builder : Builder) : list Build :=
  match m !! builderid builder with
  | Some build_data =>
      if dict_truthy build_data
      then app acc [mk_row builder build_data br revision buildbot_url]
      else acc
  | None => acc
  end.

Definition join_builders_with_change (builders : list Builder)
    (builds : list BuildRec) (br revision buildbot_url : string) : list Build :=
  let m := build_map builds in
  fold_left (join_step m br revision buildbot_url) builders [].

(* ------------------------------------------------------------------ *)
(** ** Failure classifier: the [failed_builds] comprehension of [__main__] *)

Definition non_failing_states : list string :=
  ["acquiring locks"; "building"; "build successful"; "preparing worker"].

(** [b.status.lower() not in [...]]; [None.lower()] raises
    [AttributeError], modelled as the result [None]. *)
Fixpoint failed_builds (BUILDS : list Build) : option (list Build) :=
  match BUILDS with
  | [] => Some []
  | b :: bs =>
      match status b with
      | None => None
      | Some s =>
          if existsb (String.eqb (py_lower s)) non_failing_states
          then failed_builds bs
          else option_map (cons b) (failed_builds bs)
      end
  end.

(* ------------------------------------------------------------------ *)
(** ** Builder filtering of [__main__] *)

(** [filtered_builders = set(config["configuration"].get("builder_filter") or [])]
    followed by
    [[b for b in builders if not filtered_builders or b["name"] in filtered_builders]].
    The set is kept as the list it was built from: membership is the same. *)
Definition filter_builders (builder_filter : option (list string))
    (builders : list Builder) : list Builder :=
  let filtered_builders :=
    match builder_filter with Some l => l | None => [] end in
  List.filter (fun b => match filtered_builders with [] => true | _ => false end
                   || existsb (String.eqb (bname b)) filtered_builders)
    builders.

(* ------------------------------------------------------------------ *)
(** ** builds_to_csv: [csv.writer] with the default [excel] dialect *)

Definition cr : ascii := ascii_of_nat 13.
Definition lf : ascii := ascii_of_nat 10.
Definition crlf : string := String cr (String lf EmptyString).

Fixpoint str_existsb (f : ascii -> bool) (s : string) : bool :=
  match s with
  | EmptyString => false
  | String c s' => f c || str_existsb f s'
  end.

(** Characters that make [QUOTE_MINIMAL] quote a field: the delimiter, the
    quote character and the characters of the line terminator. *)
Definition csv_special (c : ascii) : bool :=
  let n := nat_of_ascii c in
  ((n =? 44) || (n =? 34) || (n =? 13) || (n =? 10))%nat.

(** [doublequote=True]: a quote character inside a field is doubled. *)
Fixpoint csv_double_quotes (s : string) : string :=
  match s with
  | EmptyString => EmptyString
  | String c s' =>
      if (nat_of_ascii c =? 34)%nat then String c (String c (csv_double_quotes s'))
      else String c (csv_double_quotes s')
  end.

Definition csv_field (s : string) : string :=
  if str_existsb csv_special s then dq +:+ csv_double_quotes s +:+ dq else s.

(** [writer.writerow(fields)]: one record ended by ["\r\n"]; a record made
    of a single empty field is written as two quote characters. *)
Definition csv_record (fields : list string) : string :=
  match fields with
  | [EmptyString] => dq +:+ dq +:+ crlf
  | _ => py_join "," (map csv_field fields) +:+ crlf
  end.

(** [csv.writer] writes [None] as the empty field. *)
Definition csv_str_opt (o : option string) : string :=
  match o with Some s => s | None => EmptyString end.

Definition csv_header : list string := ["Branch"; "Build"; "Commit"; "Status"; "URL"].

Definition csv_fields (b : Build) : list string :=
  [branch b; name b; commit b; csv_str_opt (status b); url b].

(** [output = StringIO()]; each [writerow] appends to the buffer;
    [output.getvalue()]. *)
Definition builds_to_csv (builds : list Build) : string :=
  let output := EmptyString +:+ csv_record csv_header in
  fold_left (fun out b => out +:+ csv_record (csv_fields b)) builds output.

(* ------------------------------------------------------------------ *)
(** ** Python's [sorted]: a stable sort that only uses [<] *)

Section PySorted.
Context {A : Type} (lt : A -> A -> bool).

(** Insert [x] before the first element it is strictly smaller than, so
    it lands after every element equal to it: this keeps the sort
    stable. *)
Fixpoint py_insert (x : A) (l : list A) : list A :=
  match l with
  | [] => [x]
  | y :: l' => if lt x y then x :: l else y :: py_insert x l'
  end.

(** [sorted(l)] for the order [lt]. *)
Definition py_sorted (l : list A) : list A :=
  fold_left (fun acc x => py_insert x acc) l [].

(** [sorted(l, reverse=True)]: CPython reverses the list, sorts it stably
    and reverses the result, so equal elements keep their order. *)
Definition py_sorted_rev (l : list A) : list A :=
  rev (py_sorted (rev l)).
End PySorted.

(* ------------------------------------------------------------------ *)
(** ** builds_to_html_table *)

(** A [dict] with [str] keys in insertion order. *)
Definition grouping := list (string * list Build).

(** [grouped[k].append(b)] on a [defaultdict(list)]. *)
Fixpoint group_append (k : string) (b : Build) (g : grouping) : grouping :=
  match g with
  | [] => [(k, [b])]
  | (k', l) :: g' =>
      if String.eqb k k' then (k', app l [b]) :: g'
      else (k', l) :: group_append k b g'
  end.

(** [for b in builds: grouped[b.branch].append(b)]. *)
Definition group_by_branch (builds : list Build) : grouping :=
  fold_left (fun g b => group_append (branch b) b g) builds [].

(** [grouped[k]] (a [defaultdict]: a missing key reads as []). *)
Fixpoint group_get (k : string) (g : grouping) : list Build :=
  match g with
  | [] => []
  | (k', l) :: g' => if String.eqb k k' then l else group_get k g'
  end.

Definition separator : string :=
  "<hr style='border:none;border-top:1px solid #ccc;margin:20px 0;'>".

Definition html_row (b : Build) : string :=
  let hyperlink := "<a href=" +:+ dq +:+ url b +:+ dq +:+ ">" +:+ name b +:+ "</a>" in
  "<tr>" +:+ "<td>" +:+ hyperlink +:+ "</td>"
    +:+ "<td>" +:+ commit b +:+ "</td>"
    +:+ "<td>" +:+ py_str_opt (status b) +:+ "</td>"
    +:+ "</tr>".

Definition html_table_header : string :=
  "<tr><th>Build</th><th>Commit</th><th>Status</th></tr>".

(** [sorted(builds_in_branch, key=lambda b: b.name.lower())]. *)
Definition sort_by_name (bs : list Build) : list Build :=
  py_sorted (fun x y => String.ltb (py_lower (name x)) (py_lower (name y))) bs.

(** The parts one branch appends to [html_parts]. *)
Definition branch_parts (br : string) (builds_in_branch_sorted : list Build)
    : list string :=
  let rows := html_table_header :: map html_row builds_in_branch_sorted in
  let table_html :=
    "<table border='1' cellpadding='4' cellspacing='0' style='border-collapse:collapse'>"
      +:+ String.concat EmptyString rows +:+ "</table>" in
  ["<h3>Branch: " +:+ br +:+ "</h3>"; separator; table_html; separator].

Definition builds_to_html_table (builds : list Build) : string :=
  let grouped := group_by_branch builds in
  let html_parts :=
    fold_left
      (fun parts br =>
         let builds_in_branch := group_get br grouped in
         app parts (branch_parts br (sort_by_name builds_in_branch)))
      (py_sorted_rev String.ltb (map fst grouped)) [] in
  py_join (String (ascii_of_nat 10) EmptyString) html_parts.

(** The sections of the HTML document in the order they are written: each
    branch with its rows in table order. *)
Definition html_sections (builds : list Build) : list (string * list Build) :=
  let grouped := group_by_branch builds in
  map (fun br => (br, sort_by_name (group_get br grouped)))
    (py_sorted_rev String.ltb (map fst grouped)).

(* ------------------------------------------------------------------ *)
(** ** send_email_with_csv and [__main__] *)

(** Environment values read by [os.getenv]. *)
Record Env := mkEnv {
  SUBJECT : string;
  SENDER : string;
  RECIPIENT_EMAIL : string;
  BASE_BUILDBOT_URL : string;
  SMTP_RELAY_SERVER : string;
  SMTP_RELAY_PORT : Z
}.

(** [config["configuration"]]: [branches] and the optional [builder_filter]. *)
Record Config := mkConfig {
  branches : list string;
  builder_filter : option (list string)
}.

(** An element of [changes]: [sourcestamp.branch], [sourcestamp.revision]
    and [builds]. *)
Record Change := mkChange {
  ss_branch : string;
  ss_revision : string;
  change_builds : list BuildRec
}.

(** What the CI server answers: the [builders] list, and the [changes] list
    for each branch. *)
Record Api := mkApi {
  api_builders : list Builder;
  api_changes : string -> list Change
}.

(** The [multipart/mixed] message of [send_email_with_csv]: headers, the
    HTML part and the attachment (its payload before base64 encoding). *)
Record Message := mkMessage {
  hdr_from : string;
  hdr_to : string;
  hdr_subject : string;
  html_part : string;
  attachment_name : string;
  attachment_encoding : string;
  attachment_data : string
}.

Inductive event :=
  | HttpGet (u : string)
  | SmtpSendmail (relay : string) (port : Z) (from to : string) (msg : Message)
  | Print (s : string).

Definition send_email_with_csv (sender_email recipient_email subject html_body
    csv_content smtp_relay : string) (smtp_port : Z) : event :=
  SmtpSendmail smtp_relay smtp_port sender_email recipient_email
    {| hdr_from := sender_email; hdr_to := recipient_email; hdr_subject := subject;
       html_part := html_body;
       attachment_name := "builds_report.csv";
       attachment_encoding := "base64";
       attachment_data := csv_content |}.

Definition coffee : string := "Grab a coffee and enjoy a bug free world!".

(** One iteration of [for branch in config["configuration"]["branches"]]:
    request the latest change and, if there is one, join it. *)
Definition collect_step (api : Api) (builders : list Builder)
    (api_url buildbot_url : string) (st : list event * list Build) (br : string)
    : list event * list Build :=
  let '(tr, BUILDS) := st in
  let tr' := app tr [HttpGet (api_url +:+ "/changes?branch=" +:+ br
                                +:+ "&limit=1&order=-changeid")] in
  match api_changes api br with
  | [] => (tr', BUILDS)
  | c :: _ =>
      (tr', app BUILDS (join_builders_with_change builders (change_builds c)
                          (ss_branch c) (ss_revision c) buildbot_url))
  end.

(** The part of [__main__] up to [BUILDS]: the HTTP requests made, in order,
    and the accumulated rows. *)
Definition collect_builds (env : Env) (cfg : Config) (api : Api)
    : list event * list Build :=
  let buildbot_url := BASE_BUILDBOT_URL env in
  let api_url := buildbot_url +:+ "api/v2" in
  let builders := filter_builders (builder_filter cfg) (api_builders api) in
  fold_left (collect_step api builders api_url buildbot_url)
    (branches cfg) ([HttpGet (api_url +:+ "/builders")], []).

(** The outcome of a run: the effects in order, and whether the process
    ends normally (exit status 0) or by an uncaught exception. *)
Record Outcome := mkOutcome { trace : list event; exit_ok : bool }.

Definition main (env : Env) (cfg : Config) (api : Api) : Outcome :=
  let '(tr, BUILDS) := collect_builds env cfg api in
  match failed_builds BUILDS with
  | None => {| trace := tr; exit_ok := false |}
  | Some [] => {| trace := app tr [Print coffee]; exit_ok := true |}
  | Some failed =>
      let html_content := builds_to_html_table failed in
      let csv_content := builds_to_csv failed in
      {| trace := app tr [send_email_with_csv (SENDER env) (RECIPIENT_EMAIL env)
                            (SUBJECT env) html_content csv_content
                            (SMTP_RELAY_SERVER env) (SMTP_RELAY_PORT env)];
         exit_ok := true |}
  end.

Definition is_sendmail (e : event) : bool :=
  match e with SmtpSendmail _ _ _ _ _ => true | _ => false end.

Definition count_sendmail (tr : list event) : nat :=
  length (List.filter is_sendmail tr).

(* ------------------------------------------------------------------ *)
(** ** Auxiliary definitions and sample inputs *)

Definition row_for (builds : list BuildRec) (br revision buildbot_url : string)
    (bd : Builder) : list Build :=
  match last (List.filter (fun r => Z.eqb (rec_builderid r) (builderid bd)) builds) with
  | Some r => [mk_row bd r br revision buildbot_url]
  | None => []
  end.

Definition env_example : Env :=
  mkEnv "Failed builds" "a@example.com" "b@example.com" "http://bb/" "smtp.example.com" 465.

Definition api_no_state : Api :=
  mkApi [mkBuilder 1 "B1"]
        (fun _ => [mkChange "main" "abc" [mkBuildRec 1 (Some 42%Z) None]]).

(** The statuses the spec lists as not failing, compared after lowering. *)
Definition spec_excluded (s : string) : Prop :=
  py_lower s ∈ ["acquiring locks"; "building"; "build successful"; "preparing worker"].

Definition spec_reported (r : Build) : bool :=
  match status r with
  | Some s => negb (bool_decide (spec_excluded s))
  | None => false
  end.

Definition sample_rows : list Build :=
  [mkBuild "b1" "http://bb/#/builders/1/builds/7" "abc" "main" (Some "Build Successful");
   mkBuild "b2" "http://bb/#/builders/2/builds/8" "abc" "main" (Some "timed out");
   mkBuild "b3" "http://bb/#/builders/3/builds/9" "abc" "main" (Some EmptyString);
   mkBuild "b4" "http://bb/#/builders/4/builds/5" "abc" "main" (Some "BUILDING")].

Fixpoint count_char (a : ascii) (s : string) : nat :=
  match s with
  | EmptyString => 0
  | String c s' => (if Ascii.eqb c a then 1 else 0) + count_char a s'
  end.

Definition sample_builds : list Build :=
  [mkBuild "build-A" "http://x/A" "abc123" "main" (Some "success");
   mkBuild "build-B" "http://x/B" "def456" "dev" (Some "failed")].

(** Whether the heading of branch [b1] comes before that of [b2] in [h]. *)
Definition heading_before (h b1 b2 : string) : bool :=
  match Stdlib.Strings.String.index 0 ("<h3>Branch: " +:+ b1 +:+ "</h3>") h,
        Stdlib.Strings.String.index 0 ("<h3>Branch: " +:+ b2 +:+ "</h3>") h with
  | Some i, Some j => Nat.ltb i j
  | _, _ => false
  end.

Definition html_example : list Build :=
  [mkBuild "b" "http://x/b" "c1" "main" (Some "failed");
   mkBuild "d" "http://x/d" "c2" "dev" (Some "failed");
   mkBuild "A" "http://x/A" "c1" "main" (Some "failed")].

(** The relation between neighbours after a sort by [lt]: the later one is
    not strictly smaller. *)
Definition not_gt {A} (lt : A -> A -> bool) (x y : A) : Prop := lt y x = false.

(* ------------------------------------------------------------------ *)
(** ** load_config *)

(** What [requests.get] returns, as far as [load_config] uses it. *)
Record HttpResponse := mkHttpResponse {
  status_code : Z;
  text : string
}.

(** [resp.raise_for_status()] raises for a client (4xx) or server (5xx)
    error status. *)
Definition raise_for_status (resp : HttpResponse) : bool :=
  ((400 <=? status_code resp) && (status_code resp <? 600))%Z.

Inductive config_origin := FromUrl | FromFile.

(** The outcome of [load_config]: the text handed to [yaml.safe_load] and
    where it came from, or the [HTTPError] raised by [raise_for_status].
    YAML parsing itself is not embedded. *)
Inductive config_load :=
  | ParseYaml (origin : config_origin) (t : string)
  | HTTPErrorRaised (code : Z).

Definition load_config (fetch : string -> HttpResponse) (read_file : string -> string)
    (config_path_or_url : string) : config_load :=
  if String.prefix "http://" config_path_or_url
     || String.prefix "https://" config_path_or_url
  then
    let resp := fetch config_path_or_url in
    if raise_for_status resp then HTTPErrorRaised (status_code resp)
    else ParseYaml FromUrl (text resp)
  else ParseYaml FromFile (read_file config_path_or_url).

(* ------------------------------------------------------------------ *)
(** ** Rows contributed by one configured branch *)

(** The rows one iteration of the branch loop of [__main__] appends. *)
Definition branch_rows (api : Api) (builders : list Builder) (buildbot_url : string)
    (br : string) : list Build :=
  match api_changes api br with
  | [] => []
  | c :: _ => join_builders_with_change builders (change_builds c)
                (ss_branch c) (ss_revision c) buildbot_url
  end.

Definition changes_url (api_url br : string) : string :=
  api_url +:+ "/changes?branch=" +:+ br +:+ "&limit=1&order=-changeid".

(* ------------------------------------------------------------------ *)
(** ** Reading back a CSV field *)

(** Reads the inside of a quoted field: a doubled quote character stands
    for one quote character, a single one ends the field. *)
Fixpoint csv_read_quoted (s : string) : option string :=
  match s with
  | EmptyString => None
  | String c r =>
      if (nat_of_ascii c =? 34)%nat then
        match r with
        | EmptyString => Some EmptyString
        | String c' r' =>
            if (nat_of_ascii c' =? 34)%nat
            then option_map (String c) (csv_read_quoted r')
            else None
        end
      else option_map (String c) (csv_read_quoted r)
  end.

(** Reads a field written by [csv_field]. *)
Definition csv_read_field (t : string) : option string :=
  match t with
  | String c r => if (nat_of_ascii c =? 34)%nat then csv_read_quoted r else Some t
  | EmptyString => Some EmptyString
  end.

(* ================================================================== *)
(** * Lemmas *)

(** ** The build index *)

Lemma build_map_snoc (builds : list BuildRec) (b : BuildRec) :
  build_map (app builds [b]) = <[rec_builderid b := b]> (build_map builds).
Proof. unfold build_map. by rewrite foldl_app. Qed.

Lemma build_map_lookup (builds : list BuildRec) (k : Z) :
  build_map builds !! k
  = last (List.filter (fun r => Z.eqb (rec_builderid r) k) builds).
Proof.
  induction builds as [|b builds IH] using rev_ind; [done|].
  rewrite build_map_snoc, List.filter_app; simpl.
  destruct (Z.eqb_spec (rec_builderid b) k) as [<-|Hne].
  - rewrite lookup_insert_eq. by rewrite last_snoc.
  - rewrite lookup_insert_ne by done. by rewrite app_nil_r.
Qed.

Lemma dict_truthy_true (r : BuildRec) : dict_truthy r = true.
Proof. reflexivity. Qed.

(** ** The joiner as a concatenation over the builders *)

Lemma join_fold (builds : list BuildRec) (br revision u : string)
    (builders : list Builder) (acc : list Build) :
  fold_left (join_step (build_map builds) br revision u) builders acc
  = app acc (List.concat (map (row_for builds br revision u) builders)).
Proof.
  revert acc. induction builders as [|bd bs IH]; intros acc; simpl.
  - by rewrite app_nil_r.
  - rewrite IH. unfold join_step, row_for. rewrite build_map_lookup.
    destruct (last _); simpl; [by rewrite <- app_assoc | done].
Qed.

Lemma join_concat (builders : list Builder) (builds : list BuildRec)
    (br revision u : string) :
  join_builders_with_change builders builds br revision u
  = List.concat (map (row_for builds br revision u) builders).
Proof. unfold join_builders_with_change. by rewrite join_fold. Qed.

Lemma last_filter_some {A} (p : A -> bool) (l : list A) (x : A) :
  last (List.filter p l) = Some x -> In x l /\ p x = true.
Proof.
  intros H. apply last_Some_elem_of in H.
  apply list_elem_of_In, filter_In in H. done.
Qed.

Lemma last_filter_none {A} (p : A -> bool) (l : list A) :
  last (List.filter p l) = None -> forall x, In x l -> p x = false.
Proof.
  intros H x Hx. apply last_None in H.
  destruct (p x) eqn:E; [|done].
  assert (In x (List.filter p l)) as Hin by (apply filter_In; done).
  by rewrite H in Hin.
Qed.

Lemma row_for_cases (builds : list BuildRec) (br revision u : string) (bd : Builder) :
  (row_for builds br revision u bd = [] /\
     forall r, In r builds -> rec_builderid r <> builderid bd) \/
  (exists r, In r builds /\ rec_builderid r = builderid bd /\
     row_for builds br revision u bd = [mk_row bd r br revision u]).
Proof.
  unfold row_for.
  destruct (last _) as [r|] eqn:E.
  - apply last_filter_some in E as [Hin Hk]. apply Z.eqb_eq in Hk. right; eauto.
  - left. split; [done|]. intros r Hr Hk.
    pose proof (last_filter_none _ _ E r Hr) as H. apply Z.eqb_neq in H. done.
Qed.

(** ** The index in Python's last-write-wins terms *)

Lemma build_map_lookup_snoc (builds : list BuildRec) (b : BuildRec) (k : Z) :
  build_map (app builds [b]) !! k
  = if Z.eqb (rec_builderid b) k then Some b else build_map builds !! k.
Proof.
  rewrite build_map_snoc.
  destruct (Z.eqb_spec (rec_builderid b) k) as [<-|Hne].
  - by rewrite lookup_insert_eq.
  - by rewrite lookup_insert_ne.
Qed.

Lemma build_map_some_iff (builds : list BuildRec) (k : Z) (r : BuildRec) :
  build_map builds !! k = Some r <->
  exists pre post, builds = app pre (r :: post) /\ rec_builderid r = k /\
                   Forall (fun r' => rec_builderid r' <> k) post.
Proof.
  induction builds as [|b builds IH] using rev_ind.
  - split; [done|]. intros (pre & post & Heq & _). by destruct pre.
  - rewrite build_map_lookup_snoc.
    destruct (Z.eqb_spec (rec_builderid b) k) as [Hb|Hb].
    + split.
      * intros [= <-]. exists builds, []. by rewrite Hb.
      * intros (pre & post & Heq & Hr & Hpost).
        destruct post as [|x post _] using rev_ind.
        -- apply app_inj_tail in Heq as [_ <-]. done.
        -- rewrite app_comm_cons, app_assoc in Heq.
           apply app_inj_tail in Heq as [_ <-].
           apply Forall_app in Hpost as [_ Hx]. inversion Hx; done.
    + rewrite IH. split.
      * intros (pre & post & Heq & Hr & Hpost).
        exists pre, (app post [b]). subst builds. split; [|split; [done|]].
        -- by rewrite <- app_assoc.
        -- apply Forall_app; auto.
      * intros (pre & post & Heq & Hr & Hpost).
        destruct post as [|x post _] using rev_ind.
        -- apply app_inj_tail in Heq as [_ ->]. subst k. done.
        -- rewrite app_comm_cons, app_assoc in Heq.
           apply app_inj_tail in Heq as [Heq ->].
           apply Forall_app in Hpost as [Hpost _]. eauto.
Qed.

Lemma build_map_none_iff (builds : list BuildRec) (k : Z) :
  build_map builds !! k = None <-> Forall (fun r' => rec_builderid r' <> k) builds.
Proof.
  induction builds as [|b builds IH] using rev_ind.
  - split; [constructor | done].
  - rewrite build_map_lookup_snoc, Forall_app.
    destruct (Z.eqb_spec (rec_builderid b) k) as [Hb|Hb].
    + split; [done|]. intros [_ Hx]. inversion Hx; done.
    + rewrite IH. split.
      * intros H. split; [done|]. constructor; auto.
      * intros [H _]. done.
Qed.

(* ================================================================== *)
(** * Claims *)

(** ** Build joiner *)

(** C2: a row is produced exactly for the builders that have a build
    object with their id; unmatched builders and unmatched build objects
    give no row, and the join is total (it returns a list, it raises
    nothing).  Every row comes from a listed builder and a listed build
    object with the same id, and every matched builder has its row. *)
Theorem join_rows_iff_matched (builders : list Builder) (builds : list BuildRec)
    (br revision u : string) :
  join_builders_with_change builders builds br revision u
    = List.concat (map (row_for builds br revision u) builders) /\
  (forall bd, In bd builders ->
     (forall r, In r builds -> rec_builderid r <> builderid bd) ->
     row_for builds br revision u bd = []) /\
  (forall row, In row (join_builders_with_change builders builds br revision u) <->
     exists bd r, In bd builders /\ In r builds /\ rec_builderid r = builderid bd /\
       row = mk_row bd r br revision u /\
       build_map builds !! builderid bd = Some r).
Proof.
  split; [apply join_concat|]. split.
  - intros bd _ Hno.
    destruct (row_for_cases builds br revision u bd) as [[H _]|(r & Hr & Hk & _)];
      [done|]. exfalso. by apply (Hno r).
  - intros row. rewrite join_concat. rewrite in_concat. split.
    + intros (rows & Hrows & Hrow). apply in_map_iff in Hrows as (bd & <- & Hbd).
      unfold row_for in Hrow. destruct (last _) as [r|] eqn:E; [|done].
      destruct Hrow as [<-|[]].
      rewrite <- build_map_lookup in E.
      pose proof E as E'. rewrite build_map_lookup in E'.
      apply last_filter_some in E' as [Hin Hk]. apply Z.eqb_eq in Hk.
      exists bd, r. done.
    + intros (bd & r & Hbd & Hin & Hk & -> & Hm).
      exists (row_for builds br revision u bd). split.
      * apply in_map_iff. eauto.
      * unfold row_for. rewrite <- build_map_lookup, Hm. by left.
Qed.

(** C5: the index maps an id to the build object that comes last in the
    input among those with that id (last write wins), and to nothing when
    no build object has it; with builder 1 and two build objects for id 1,
    the second with [state_string] ["X"], the row keeps ["X"]. *)
Theorem build_map_last_write_wins (builds : list BuildRec) (k : Z) (r : BuildRec)
    (n1 n2 : option Z) (s1 : option string) (br revision u : string) :
  (build_map builds !! k = Some r <->
     exists pre post, builds = app pre (r :: post) /\ rec_builderid r = k /\
                      Forall (fun r' => rec_builderid r' <> k) post) /\
  (build_map builds !! k = None <-> Forall (fun r' => rec_builderid r' <> k) builds) /\
  map status (join_builders_with_change [mkBuilder 1 "B1"]
                [mkBuildRec 1 n1 s1; mkBuildRec 1 n2 (Some "X")] br revision u)
    = [Some "X"].
Proof.
  split; [apply build_map_some_iff|]. split; [apply build_map_none_iff|].
  reflexivity.
Qed.

(** C9: the joiner emits at most one row per builder, for a subsequence
    of the builders taken in roster order, so there are no more rows than
    builders; several build objects for one id still give one row. *)
Theorem join_one_row_per_builder (builders : list Builder) (builds : list BuildRec)
    (br revision u : string) :
  exists sel, sel `sublist_of` builders /\
    Forall2 (fun bd row => exists r, In r builds /\ rec_builderid r = builderid bd /\
                                     row = mk_row bd r br revision u)
      sel (join_builders_with_change builders builds br revision u) /\
    length (join_builders_with_change builders builds br revision u)
      <= length builders.
Proof.
  rewrite join_concat.
  induction builders as [|bd bs IH]; simpl.
  - exists []. repeat split; constructor.
  - destruct IH as (sel & Hsub & Hrows & Hlen).
    destruct (row_for_cases builds br revision u bd)
      as [[-> _]|(r & Hr & Hk & ->)]; simpl.
    + exists sel. repeat split; [by apply sublist_cons | done | lia].
    + exists (bd :: sel). repeat split.
      * by apply sublist_skip.
      * constructor; eauto.
      * lia.
Qed.

(** ** A build object without [state_string] *)

(** C4: for a build object with no [state_string] the joiner still emits
    the row, with status [None]; the classifier then evaluates
    [None.lower()], which raises, so the run ends with an uncaught
    exception and sends nothing. *)
Theorem missing_state_string_breaks_classifier :
  join_builders_with_change [mkBuilder 1 "B1"] [mkBuildRec 1 (Some 42%Z) None]
      "main" "abc" "http://bb/"
    = [mkBuild "B1" "http://bb/#/builders/1/builds/42" "abc" "main" None] /\
  failed_builds [mkBuild "B1" "http://bb/#/builders/1/builds/42" "abc" "main" None]
    = None /\
  exit_ok (main env_example (mkConfig ["main"] None) api_no_state) = false /\
  count_sendmail (trace (main env_example (mkConfig ["main"] None) api_no_state)) = 0.
Proof. repeat split; reflexivity. Qed.

(** ** Failure classifier *)

Lemma existsb_eqb_elem_of (x : string) (l : list string) :
  existsb (String.eqb x) l = bool_decide (x ∈ l).
Proof.
  apply Bool.eq_iff_eq_true. rewrite existsb_exists, bool_decide_eq_true.
  split.
  - intros (y & Hy & Heq). apply String.eqb_eq in Heq as ->.
    by apply list_elem_of_In.
  - intros Hx. exists x. split; [by apply list_elem_of_In | apply String.eqb_refl].
Qed.

(** C1: on rows whose statuses are strings, the classifier returns, in
    order, exactly the rows whose lowered status is none of the four
    literals; a status that lowers to ["build successful"] is dropped, and
    ["timed out"] and the empty status are reported. *)
Theorem failure_classifier (rows : list Build)
    (Hstr : Forall (fun r => status r <> None) rows) :
  failed_builds rows = Some (List.filter spec_reported rows) /\
  (forall nm u c br s, py_lower s = "build successful" ->
     failed_builds [mkBuild nm u c br (Some s)] = Some []) /\
  (forall nm u c br,
     failed_builds [mkBuild nm u c br (Some "timed out")]
       = Some [mkBuild nm u c br (Some "timed out")]) /\
  (forall nm u c br,
     failed_builds [mkBuild nm u c br (Some EmptyString)]
       = Some [mkBuild nm u c br (Some EmptyString)]).
Proof.
  split; [|split; [|split]].
  - induction Hstr as [|r rows Hr Hrows IH]; [done|].
    cbn [failed_builds List.filter]. unfold spec_reported at 1.
    destruct (status r) as [s|] eqn:Hs; [|done].
    rewrite existsb_eqb_elem_of. unfold spec_excluded.
    destruct (bool_decide _); simpl; rewrite IH; done.
  - intros nm u c br s H. simpl. rewrite H. reflexivity.
  - reflexivity.
  - reflexivity.
Qed.

Lemma failure_classifier_witness :
  Forall (fun r => status r <> None) sample_rows /\
  failed_builds sample_rows = Some (List.filter spec_reported sample_rows).
Proof.
  split; [repeat constructor; discriminate|].
  apply (proj1 (failure_classifier sample_rows
                  ltac:(repeat constructor; discriminate))).
Defined.

Example failed_builds_sample :
  failed_builds sample_rows =
    Some [mkBuild "b2" "http://bb/#/builders/2/builds/8" "abc" "main" (Some "timed out");
          mkBuild "b3" "http://bb/#/builders/3/builds/9" "abc" "main" (Some EmptyString)].
Proof. reflexivity. Qed.

(** ** Builder filter *)

(** C8: with no allow-list, or an empty one, the roster is kept as it is;
    with a non-empty allow-list, exactly the builders whose name is in it
    are kept, in roster order. *)
Theorem builder_filter_spec (bf : option (list string)) (builders : list Builder) :
  ((bf = None \/ bf = Some []) -> filter_builders bf builders = builders) /\
  (forall l, bf = Some l -> l <> [] ->
     filter_builders bf builders
       = List.filter (fun b => bool_decide (bname b ∈ l)) builders).
Proof.
  split.
  - intros [-> | ->]; unfold filter_builders; simpl;
      induction builders as [|b bs IH]; simpl; by rewrite ?IH.
  - intros l -> Hl. unfold filter_builders.
    destruct l as [|x l]; [done|].
    apply List.filter_ext. intros b.
    rewrite existsb_eqb_elem_of. reflexivity.
Qed.

Lemma builder_filter_spec_witness :
  filter_builders (Some ["B2"]) [mkBuilder 1 "B1"; mkBuilder 2 "B2"]
    = List.filter (fun b => bool_decide (bname b ∈ ["B2"]))
        [mkBuilder 1 "B1"; mkBuilder 2 "B2"] /\
  filter_builders None [mkBuilder 1 "B1"; mkBuilder 2 "B2"]
    = [mkBuilder 1 "B1"; mkBuilder 2 "B2"].
Proof.
  split.
  - apply (proj2 (builder_filter_spec (Some ["B2"]) [mkBuilder 1 "B1"; mkBuilder 2 "B2"])
             ["B2"] eq_refl); discriminate.
  - apply (proj1 (builder_filter_spec None [mkBuilder 1 "B1"; mkBuilder 2 "B2"])).
    by left.
Defined.

(** ** Empty input of the renderers *)

(** C10: on no rows, the CSV document is the header record alone and the
    HTML document is the empty string. *)
Theorem empty_reports :
  builds_to_csv [] = "Branch,Build,Commit,Status,URL" +:+ crlf /\
  builds_to_html_table [] = EmptyString.
Proof. split; reflexivity. Qed.

(** ** Top-level run *)

Lemma count_sendmail_app (t1 t2 : list event) :
  count_sendmail (app t1 t2) = count_sendmail t1 + count_sendmail t2.
Proof. unfold count_sendmail. by rewrite List.filter_app, length_app. Qed.

Lemma collect_no_sendmail (api : Api) (builders : list Builder)
    (api_url buildbot_url : string) (brs : list string)
    (tr : list event) (B : list Build) :
  count_sendmail tr = 0 ->
  count_sendmail (fst (fold_left (collect_step api builders api_url buildbot_url)
                         brs (tr, B))) = 0.
Proof.
  revert tr B. induction brs as [|br brs IH]; intros tr B Htr; [done|].
  simpl. destruct (api_changes api br); apply IH;
    rewrite count_sendmail_app, Htr; reflexivity.
Qed.

Lemma collect_builds_no_sendmail (env : Env) (cfg : Config) (api : Api) :
  count_sendmail (fst (collect_builds env cfg api)) = 0.
Proof. unfold collect_builds. by apply collect_no_sendmail. Qed.

(** C3: when the classified list is empty no mail is sent and the run
    ends normally after printing its message; when it is not empty exactly
    one mail is sent, with the HTML document as body and the CSV document
    as the [builds_report.csv] attachment.  (When the classifier raises,
    nothing is sent either.) *)
Theorem main_mails_iff_failures (env : Env) (cfg : Config) (api : Api) :
  match failed_builds (snd (collect_builds env cfg api)) with
  | Some [] =>
      count_sendmail (trace (main env cfg api)) = 0 /\
      exit_ok (main env cfg api) = true /\
      last (trace (main env cfg api)) = Some (Print coffee)
  | Some failed =>
      count_sendmail (trace (main env cfg api)) = 1 /\
      exit_ok (main env cfg api) = true /\
      exists msg,
        In (SmtpSendmail (SMTP_RELAY_SERVER env) (SMTP_RELAY_PORT env)
              (SENDER env) (RECIPIENT_EMAIL env) msg) (trace (main env cfg api)) /\
        html_part msg = builds_to_html_table failed /\
        attachment_name msg = "builds_report.csv" /\
        attachment_data msg = builds_to_csv failed
  | None =>
      count_sendmail (trace (main env cfg api)) = 0 /\
      exit_ok (main env cfg api) = false
  end.
Proof.
  pose proof (collect_builds_no_sendmail env cfg api) as Hc.
  unfold main. destruct (collect_builds env cfg api) as [tr B]. simpl in *.
  destruct (failed_builds B) as [[|f fs]|]; simpl.
  - rewrite count_sendmail_app, Hc. split; [done|]. split; [done|].
    by rewrite last_snoc.
  - rewrite count_sendmail_app, Hc. split; [done|]. split; [done|].
    eexists. split; [apply in_or_app; right; left; reflexivity|].
    done.
  - done.
Qed.

(** ** CSV document *)

Lemma sappend_cons (c : ascii) (s1 s2 : string) :
  String c s1 +:+ s2 = String c (s1 +:+ s2).
Proof. reflexivity. Qed.

Lemma sappend_nil_l (s : string) : EmptyString +:+ s = s.
Proof. reflexivity. Qed.

Lemma sappend_assoc (s1 s2 s3 : string) : (s1 +:+ s2) +:+ s3 = s1 +:+ (s2 +:+ s3).
Proof.
  induction s1 as [|c s1 IH]; [done|]. by rewrite !sappend_cons, IH.
Qed.

Lemma sappend_nil_r (s : string) : s +:+ EmptyString = s.
Proof. induction s as [|c s IH]; [done|]. by rewrite sappend_cons, IH. Qed.

Lemma count_char_app (a : ascii) (s1 s2 : string) :
  count_char a (s1 +:+ s2) = count_char a s1 + count_char a s2.
Proof.
  induction s1 as [|c s1 IH]; [done|].
  rewrite sappend_cons. simpl. rewrite IH. lia.
Qed.

Lemma csv_fold (builds : list Build) (out : string) :
  fold_left (fun out b => out +:+ csv_record (csv_fields b)) builds out
  = out +:+ String.concat EmptyString (map (fun b => csv_record (csv_fields b)) builds).
Proof.
  revert out. induction builds as [|b bs IH]; intros out; cbn [fold_left map].
  - by rewrite sappend_nil_r.
  - rewrite IH, sappend_assoc. destruct bs; cbn [map String.concat];
      [by rewrite sappend_nil_r | reflexivity].
Qed.

Lemma count_lf_double_quotes (s : string) :
  count_char lf (csv_double_quotes s) = count_char lf s.
Proof.
  induction s as [|c s IH]; simpl; [done|].
  destruct (nat_of_ascii c =? 34)%nat eqn:E; simpl; rewrite IH; [|done].
  apply Nat.eqb_eq in E. destruct (Ascii.eqb c lf) eqn:F; [|done].
  apply Ascii.eqb_eq in F. subst c. discriminate E.
Qed.

Lemma count_lf_field (f : string) :
  count_char lf f = 0 -> count_char lf (csv_field f) = 0.
Proof.
  intros H. unfold csv_field. destruct (str_existsb _ _); [|done].
  rewrite !count_char_app, count_lf_double_quotes, H. reflexivity.
Qed.

Lemma count_lf_join_fields (fs : list string) :
  Forall (fun f => count_char lf f = 0) fs ->
  count_char lf (py_join "," (map csv_field fs)) = 0.
Proof.
  induction 1 as [|f fs Hf Hfs IH]; [done|].
  destruct fs as [|g fs]; cbn [map py_join].
  - by apply count_lf_field.
  - cbn [map py_join] in IH.
    rewrite !count_char_app, count_lf_field, IH by done. reflexivity.
Qed.

Lemma csv_record_default (fs : list string) :
  fs <> [EmptyString] -> csv_record fs = py_join "," (map csv_field fs) +:+ crlf.
Proof.
  intros Hne. unfold csv_record.
  destruct fs as [|f [|g fs]]; try reflexivity; [|by destruct f].
  destruct f; [by contradiction Hne | reflexivity].
Qed.

Lemma count_lf_record (fs : list string) :
  Forall (fun f => count_char lf f = 0) fs -> count_char lf (csv_record fs) = 1.
Proof.
  intros H. destruct (decide (fs = [EmptyString])) as [->|Hne]; [reflexivity|].
  rewrite csv_record_default, count_char_app, count_lf_join_fields by done.
  reflexivity.
Qed.

Lemma count_lf_records (builds : list Build) :
  Forall (fun b => Forall (fun f => count_char lf f = 0) (csv_fields b)) builds ->
  count_char lf (String.concat EmptyString
                   (map (fun b => csv_record (csv_fields b)) builds)) = length builds.
Proof.
  induction 1 as [|b bs Hb Hbs IH]; [done|].
  destruct bs as [|b' bs]; cbn [map String.concat length].
  - by rewrite count_lf_record.
  - cbn [map String.concat length] in IH.
    rewrite !count_char_app, count_lf_record, IH by done. reflexivity.
Qed.

(** C7: the CSV document is the header record [Branch,Build,Commit,Status,URL]
    followed by one record per row, in the order given; when no field holds
    a line feed there is one line per record.  For the two sample rows the
    document starts with the header and has three lines. *)
Theorem csv_layout (builds : list Build) :
  builds_to_csv builds
    = "Branch,Build,Commit,Status,URL" +:+ crlf
      +:+ String.concat EmptyString (map (fun b => csv_record (csv_fields b)) builds) /\
  (Forall (fun b => Forall (fun f => count_char lf f = 0) (csv_fields b)) builds ->
   count_char lf (builds_to_csv builds) = S (length builds)) /\
  String.prefix "Branch,Build,Commit,Status,URL" (builds_to_csv sample_builds) = true /\
  count_char lf (builds_to_csv sample_builds) = 3.
Proof.
  assert (Heq : builds_to_csv builds
    = "Branch,Build,Commit,Status,URL" +:+ crlf
      +:+ String.concat EmptyString (map (fun b => csv_record (csv_fields b)) builds)).
  { unfold builds_to_csv. rewrite csv_fold. reflexivity. }
  split; [exact Heq|]. split; [|split; vm_compute; reflexivity].
  intros H. rewrite Heq, !count_char_app, count_lf_records by done. reflexivity.
Qed.

Lemma csv_layout_witness :
  count_char lf (builds_to_csv sample_builds) = S (length sample_builds).
Proof.
  apply (proj1 (proj2 (csv_layout sample_builds))).
  repeat constructor; vm_compute; reflexivity.
Defined.

(** ** Python's [sorted] *)

Section PySortedFacts.
Context {A : Type} (lt : A -> A -> bool).

Lemma py_insert_perm (x : A) (l : list A) : Permutation (py_insert lt x l) (x :: l).
Proof.
  induction l as [|y l IH]; simpl; [done|].
  destruct (lt x y); [done|].
  rewrite IH. constructor.
Qed.

Lemma py_sorted_fold_perm (l acc : list A) :
  Permutation (fold_left (fun acc x => py_insert lt x acc) l acc) (app l acc).
Proof.
  revert acc. induction l as [|x l IH]; intros acc; simpl; [done|].
  rewrite IH, py_insert_perm. symmetry. apply Permutation_middle.
Qed.

Lemma py_sorted_perm (l : list A) : Permutation (py_sorted lt l) l.
Proof. unfold py_sorted. rewrite py_sorted_fold_perm. by rewrite app_nil_r. Qed.

Lemma py_sorted_rev_perm (l : list A) : Permutation (py_sorted_rev lt l) l.
Proof.
  unfold py_sorted_rev. rewrite <- Permutation_rev, py_sorted_perm.
  symmetry. apply Permutation_rev.
Qed.

Hypothesis lt_asym : forall x y, lt x y = true -> lt y x = false.

Lemma py_insert_hd (x y : A) (l : list A) :
  HdRel (not_gt lt) y l -> not_gt lt y x -> HdRel (not_gt lt) y (py_insert lt x l).
Proof.
  intros Hhd Hyx. destruct l as [|z l]; simpl.
  - by constructor.
  - destruct (lt x z); constructor; [done|]. by inversion Hhd.
Qed.

Lemma py_insert_sorted (x : A) (l : list A) :
  Sorted (not_gt lt) l -> Sorted (not_gt lt) (py_insert lt x l).
Proof.
  induction l as [|y l IH]; intros Hs; simpl.
  - by repeat constructor.
  - destruct (lt x y) eqn:Hxy.
    + constructor; [done|]. constructor. unfold not_gt. by apply lt_asym.
    + apply Sorted_inv in Hs as [Hs Hhd]. constructor; [by apply IH|].
      by apply py_insert_hd.
Qed.

Lemma py_sorted_sorted (l : list A) : Sorted (not_gt lt) (py_sorted lt l).
Proof.
  unfold py_sorted. assert (Sorted (not_gt lt) []) as H0 by constructor.
  revert H0. generalize (@nil A) as acc.
  induction l as [|x l IH]; intros acc Hacc; simpl; [done|].
  apply IH. by apply py_insert_sorted.
Qed.
End PySortedFacts.

(** ** Sorted lists *)

Lemma Sorted_snoc {A} (R : A -> A -> Prop) (l : list A) (x : A) :
  Sorted R l -> (forall y, last l = Some y -> R y x) -> Sorted R (app l [x]).
Proof.
  induction l as [|a l IH]; intros Hs Hlast; simpl.
  - by repeat constructor.
  - apply Sorted_inv in Hs as [Hs Hhd]. constructor.
    + apply IH; [done|]. intros y Hy. apply Hlast.
      destruct l; [done|]. exact Hy.
    + destruct l as [|b l]; simpl.
      * constructor. by apply Hlast.
      * constructor. by inversion Hhd.
Qed.

Lemma Sorted_rev {A} (R : A -> A -> Prop) (l : list A) :
  Sorted R l -> Sorted (fun x y => R y x) (rev l).
Proof.
  induction l as [|a l IH]; intros Hs; simpl; [constructor|].
  apply Sorted_inv in Hs as [Hs Hhd].
  apply Sorted_snoc; [by apply IH|].
  intros y Hy. destruct l as [|b l]; [done|].
  simpl in Hy. rewrite last_snoc in Hy. injection Hy as <-.
  by inversion Hhd.
Qed.

Lemma Sorted_strict {A} (R R' : A -> A -> Prop) (l : list A) :
  (forall x y, R x y -> x <> y -> R' x y) ->
  Sorted R l -> List.NoDup l -> Sorted R' l.
Proof.
  intros HR. induction l as [|a l IH]; intros Hs Hnd; [constructor|].
  apply Sorted_inv in Hs as [Hs Hhd]. apply NoDup_cons_iff in Hnd as [Ha Hnd].
  constructor; [by apply IH|].
  destruct l as [|b l]; constructor. inversion Hhd; subst.
  apply HR; [done|]. intros ->. apply Ha. by left.
Qed.

Lemma Sorted_weaken {A} (R R' : A -> A -> Prop) (l : list A) :
  (forall x y, R x y -> R' x y) -> Sorted R l -> Sorted R' l.
Proof.
  intros HR. induction 1 as [|a l Hs IH Hhd]; constructor; [done|].
  destruct Hhd; constructor; auto.
Qed.

(** ** Strings under [<] *)

Lemma str_ltb_asym (x y : string) : String.ltb x y = true -> String.ltb y x = false.
Proof.
  unfold String.ltb. rewrite (String.compare_antisym y x).
  destruct (String.compare x y); simpl; done.
Qed.

Lemma str_not_gt_strict (x y : string) :
  String.ltb y x = false -> x <> y -> String.ltb x y = true.
Proof.
  unfold String.ltb. rewrite (String.compare_antisym y x).
  destruct (String.compare x y) eqn:E; simpl; try done.
  intros _ Hne. apply String.compare_eq_iff in E. done.
Qed.

Lemma str_not_gt_leb (x y : string) : String.ltb y x = false -> String.leb x y = true.
Proof.
  unfold String.ltb, String.leb. rewrite (String.compare_antisym y x).
  destruct (String.compare x y); simpl; done.
Qed.

(** ** Grouping by branch *)

Lemma group_append_keys (k : string) (b : Build) (g : grouping) :
  map fst (group_append k b g)
  = if existsb (String.eqb k) (map fst g) then map fst g else app (map fst g) [k].
Proof.
  induction g as [|[k' l] g IH]; [done|]. cbn [group_append map fst existsb].
  destruct (String.eqb k k') eqn:E; cbn [map fst orb]; [done|].
  rewrite IH. by destruct (existsb _ _).
Qed.

Lemma group_get_append (k' k : string) (b : Build) (g : grouping) :
  group_get k' (group_append k b g)
  = if String.eqb k' k then app (group_get k' g) [b] else group_get k' g.
Proof.
  induction g as [|[k1 l] g IH]; cbn [group_append group_get].
  - by destruct (String.eqb k' k).
  - destruct (String.eqb_spec k k1) as [<-|Hne]; cbn [group_get].
    + by destruct (String.eqb k' k).
    + rewrite IH.
      destruct (String.eqb_spec k' k1) as [->|Hne1];
        destruct (String.eqb_spec k1 k) as [->|Hne2]; done.
Qed.

Lemma group_by_branch_snoc (builds : list Build) (b : Build) :
  group_by_branch (app builds [b]) = group_append (branch b) b (group_by_branch builds).
Proof. unfold group_by_branch. by rewrite fold_left_app. Qed.

Lemma group_get_filter (k : string) (builds : list Build) :
  group_get k (group_by_branch builds)
  = List.filter (fun b => String.eqb (branch b) k) builds.
Proof.
  induction builds as [|b builds IH] using rev_ind; [done|].
  rewrite group_by_branch_snoc, group_get_append, IH, List.filter_app.
  cbn [List.filter]. rewrite (String.eqb_sym k (branch b)).
  destruct (String.eqb (branch b) k); simpl; by rewrite ?app_nil_r.
Qed.

Lemma NoDup_snoc {A} (l : list A) (x : A) : ~ In x l -> List.NoDup l -> List.NoDup (app l [x]).
Proof.
  intros Hx Hl. apply (Permutation_NoDup (l := x :: l)).
  - apply Permutation_cons_append.
  - by constructor.
Qed.

Lemma group_keys (builds : list Build) :
  List.NoDup (map fst (group_by_branch builds)) /\
  (forall k, In k (map fst (group_by_branch builds)) <->
             exists b, In b builds /\ branch b = k).
Proof.
  induction builds as [|b builds IH] using rev_ind.
  - split; [constructor|]. intros k. split; [done|]. by intros (b & [] & _).
  - destruct IH as [Hnd Hin].
    rewrite group_by_branch_snoc, group_append_keys.
    destruct (existsb (String.eqb (branch b)) _) eqn:E.
    + apply existsb_exists in E as (k & Hk & Heq). apply String.eqb_eq in Heq as <-.
      split; [done|]. intros k'. rewrite Hin. split.
      * intros (b' & Hb' & <-). exists b'. split; [apply in_or_app; by left | done].
      * intros (b' & Hb' & <-). apply in_app_or in Hb' as [Hb'|[<-|[]]].
        -- eauto.
        -- by apply Hin.
    + split.
      * apply NoDup_snoc; [|done]. intros Hk.
        assert (existsb (String.eqb (branch b)) (map fst (group_by_branch builds)) = true)
          as E'; [|by rewrite E in E'].
        apply existsb_exists. exists (branch b). split; [done | apply String.eqb_refl].
      * intros k'. rewrite in_app_iff, Hin. split.
        -- intros [(b' & Hb' & <-)|[<-|[]]].
           ++ exists b'. split; [apply in_or_app; by left | done].
           ++ exists b. split; [apply in_or_app; right; by left | done].
        -- intros (b' & Hb' & <-). apply in_app_or in Hb' as [Hb'|[<-|[]]].
           ++ left. eauto.
           ++ right. by left.
Qed.

(** ** The HTML document as a list of sections *)

Lemma html_fold (g : grouping) (ks : list string) (acc : list string) :
  fold_left (fun parts br =>
               app parts (branch_parts br (sort_by_name (group_get br g)))) ks acc
  = app acc (List.concat (map (fun p => branch_parts p.1 p.2)
                           (map (fun br => (br, sort_by_name (group_get br g))) ks))).
Proof.
  revert acc. induction ks as [|k ks IH]; intros acc; simpl.
  - by rewrite app_nil_r.
  - rewrite IH, <- app_assoc. reflexivity.
Qed.

Lemma html_sections_keys (builds : list Build) :
  map fst (html_sections builds)
  = py_sorted_rev String.ltb (map fst (group_by_branch builds)).
Proof. unfold html_sections. rewrite map_map. simpl. apply map_id. Qed.

(** C6 (counterexample): with failing rows on [main] and [dev], the [dev]
    section does not come before the [main] section. *)
Lemma html_dev_not_first :
  heading_before (builds_to_html_table html_example) "dev" "main" = false.
Proof. vm_compute. reflexivity. Qed.

(** C6 (amended): the document is the sections joined by newlines; the
    sections follow the distinct branches of the rows in strictly
    descending order of [String.compare] (so [main] comes before [dev]);
    inside a section the rows are the rows of that branch ordered by their
    lowered name ([A] before [b]). *)
Theorem html_sections_order (builds : list Build) :
  builds_to_html_table builds
    = py_join (String lf EmptyString)
        (List.concat (map (fun p => branch_parts p.1 p.2) (html_sections builds))) /\
  Sorted (fun a b => String.ltb b a = true) (map fst (html_sections builds)) /\
  List.NoDup (map fst (html_sections builds)) /\
  (forall br, In br (map fst (html_sections builds)) <->
              exists b, In b builds /\ branch b = br) /\
  (forall br rows, In (br, rows) (html_sections builds) ->
     Sorted (fun x y => String.leb (py_lower (name x)) (py_lower (name y)) = true) rows /\
     Permutation rows (List.filter (fun b => String.eqb (branch b) br) builds)) /\
  heading_before (builds_to_html_table html_example) "main" "dev" = true /\
  map (fun p => (p.1, map name p.2)) (html_sections html_example)
    = [("main", ["A"; "b"]); ("dev", ["d"])].
Proof.
  destruct (group_keys builds) as [Hnd Hin].
  split; [|split; [|split; [|split; [|split; [|split]]]]].
  - unfold builds_to_html_table, html_sections. rewrite html_fold. reflexivity.
  - rewrite html_sections_keys. unfold py_sorted_rev.
    apply (Sorted_rev (fun a b => String.ltb a b = true)).
    apply (Sorted_strict (not_gt String.ltb)).
    + intros x y Hxy Hne. by apply str_not_gt_strict.
    + apply py_sorted_sorted. apply str_ltb_asym.
    + eapply Permutation_NoDup; [symmetry; apply py_sorted_perm|].
      by apply NoDup_rev.
  - rewrite html_sections_keys.
    eapply Permutation_NoDup; [symmetry; apply py_sorted_rev_perm | done].
  - intros br. rewrite html_sections_keys.
    split; intros H.
    + apply Hin. eapply Permutation_in; [apply py_sorted_rev_perm | done].
    + apply Hin in H. eapply Permutation_in; [symmetry; apply py_sorted_rev_perm | done].
  - intros br rows Hrows. unfold html_sections in Hrows.
    apply in_map_iff in Hrows as (br' & [= <- <-] & _). split.
    + eapply Sorted_weaken; [|apply py_sorted_sorted].
      * intros x y Hxy. by apply str_not_gt_leb.
      * intros x y. apply str_ltb_asym.
    + unfold sort_by_name. rewrite py_sorted_perm. by rewrite group_get_filter.
  - vm_compute. reflexivity.
  - vm_compute. reflexivity.
Qed.

(* ================================================================== *)
(** * Further properties of the code *)

(** ** The branch loop of [__main__] *)

Lemma collect_fold (api : Api) (builders : list Builder) (api_url u : string)
    (brs : list string) (tr : list event) (B : list Build) :
  fold_left (collect_step api builders api_url u) brs (tr, B)
  = (app tr (map (fun br => HttpGet (changes_url api_url br)) brs),
     app B (List.concat (map (branch_rows api builders u) brs))).
Proof.
  revert tr B. induction brs as [|br brs IH]; intros tr B; simpl.
  - by rewrite !app_nil_r.
  - destruct (api_changes api br) as [|c cs] eqn:E; rewrite IH, <- !app_assoc;
      unfold changes_url, branch_rows; rewrite E; reflexivity.
Qed.

Lemma collect_builds_eq (env : Env) (cfg : Config) (api : Api) :
  collect_builds env cfg api
  = (HttpGet (BASE_BUILDBOT_URL env +:+ "api/v2" +:+ "/builders")
       :: map (fun br => HttpGet (changes_url (BASE_BUILDBOT_URL env +:+ "api/v2") br))
              (branches cfg),
     List.concat (map (branch_rows api
                         (filter_builders (builder_filter cfg) (api_builders api))
                         (BASE_BUILDBOT_URL env))
                      (branches cfg))).
Proof. unfold collect_builds. rewrite collect_fold. by rewrite sappend_assoc. Qed.

(** X1: before classifying, a run makes exactly these requests, in this
    order: [GET {BASE_BUILDBOT_URL}api/v2/builders], then one
    [GET .../changes?branch={b}&limit=1&order=-changeid] per configured
    branch, in configuration order (a branch listed twice is requested
    twice). *)
Theorem collect_requests (env : Env) (cfg : Config) (api : Api) :
  fst (collect_builds env cfg api)
  = HttpGet (BASE_BUILDBOT_URL env +:+ "api/v2/builders")
      :: map (fun br => HttpGet (BASE_BUILDBOT_URL env +:+ "api/v2/changes?branch="
                                   +:+ br +:+ "&limit=1&order=-changeid"))
             (branches cfg).
Proof.
  rewrite collect_builds_eq. simpl. f_equal.
  apply map_ext. intros br. unfold changes_url. by rewrite sappend_assoc.
Qed.

(** X2: the accumulated rows are, branch after branch in configuration
    order, the join of the filtered roster with the builds of the first
    change returned for that branch; a branch with no change adds
    nothing. *)
Theorem collect_rows (env : Env) (cfg : Config) (api : Api) :
  snd (collect_builds env cfg api)
  = List.concat
      (map (fun br =>
              match api_changes api br with
              | [] => []
              | c :: _ =>
                  join_builders_with_change
                    (filter_builders (builder_filter cfg) (api_builders api))
                    (change_builds c) (ss_branch c) (ss_revision c)
                    (BASE_BUILDBOT_URL env)
              end)
           (branches cfg)).
Proof. by rewrite collect_builds_eq. Qed.

(** X3: only the first element of each branch's [changes] list matters:
    two servers that return the same roster and the same first change
    (or no change) for every branch lead to the same run. *)
Theorem main_first_change_only (env : Env) (cfg : Config) (api api' : Api) :
  api_builders api = api_builders api' ->
  (forall br, head (api_changes api br) = head (api_changes api' br)) ->
  main env cfg api = main env cfg api'.
Proof.
  intros Hb Hc.
  assert (collect_builds env cfg api = collect_builds env cfg api') as E.
  { rewrite !collect_builds_eq, Hb. do 2 f_equal.
    apply map_ext. intros br. unfold branch_rows. specialize (Hc br).
    destruct (api_changes api br), (api_changes api' br); simplify_eq/=; done. }
  unfold main. by rewrite E.
Qed.

Lemma main_first_change_only_witness :
  main env_example (mkConfig ["main"] None) api_no_state
  = main env_example (mkConfig ["main"] None)
      (mkApi [mkBuilder 1 "B1"]
         (fun _ => [mkChange "main" "abc" [mkBuildRec 1 (Some 42%Z) None];
                    mkChange "main" "old" [mkBuildRec 1 (Some 41%Z) (Some "failed")]])).
Proof.
  apply main_first_change_only; [reflexivity|]. intros br. reflexivity.
Defined.

Lemma join_length_le (builders : list Builder) (builds : list BuildRec)
    (br revision u : string) :
  length (join_builders_with_change builders builds br revision u) <= length builders.
Proof.
  rewrite join_concat. induction builders as [|bd bs IH]; simpl; [lia|].
  rewrite length_app.
  destruct (row_for_cases builds br revision u bd) as [[-> _]|(r & _ & _ & ->)];
    simpl; lia.
Qed.

Lemma branch_rows_length_le (api : Api) (builders : list Builder) (u br : string) :
  length (branch_rows api builders u br) <= length builders.
Proof.
  unfold branch_rows. destruct (api_changes api br); simpl; [lia|].
  apply join_length_le.
Qed.

(** X4: a run accumulates at most one row per configured branch and
    filtered builder. *)
Theorem collect_rows_bound (env : Env) (cfg : Config) (api : Api) :
  length (snd (collect_builds env cfg api))
  <= length (branches cfg)
     * length (filter_builders (builder_filter cfg) (api_builders api)).
Proof.
  rewrite collect_builds_eq. simpl.
  induction (branches cfg) as [|br brs IH]; simpl; [lia|].
  rewrite length_app.
  pose proof (branch_rows_length_le api (filter_builders (builder_filter cfg) (api_builders api))
                (BASE_BUILDBOT_URL env) br).
  lia.
Qed.

(** X5: every accumulated row names a builder of the filtered roster and
    carries the branch and revision of the [sourcestamp] of the first
    change returned for some configured branch (not the configured branch
    name itself). *)
Theorem collect_rows_origin (env : Env) (cfg : Config) (api : Api) (row : Build) :
  In row (snd (collect_builds env cfg api)) ->
  exists br c cs bd,
    In br (branches cfg) /\ api_changes api br = c :: cs /\
    In bd (filter_builders (builder_filter cfg) (api_builders api)) /\
    name row = bname bd /\ branch row = ss_branch c /\ commit row = ss_revision c.
Proof.
  rewrite collect_builds_eq. simpl. intros Hin.
  apply in_concat in Hin as (rows & Hrows & Hrow).
  apply in_map_iff in Hrows as (br & <- & Hbr).
  unfold branch_rows in Hrow. destruct (api_changes api br) as [|c cs] eqn:E; [done|].
  rewrite join_concat in Hrow. apply in_concat in Hrow as (rs & Hrs & Hr).
  apply in_map_iff in Hrs as (bd & <- & Hbd).
  destruct (row_for_cases (change_builds c) (ss_branch c) (ss_revision c)
              (BASE_BUILDBOT_URL env) bd) as [[E' _]|(r & _ & _ & E')];
    rewrite E' in Hr; [done|].
  destruct Hr as [<-|[]].
  exists br, c, cs, bd. done.
Qed.

Lemma collect_rows_origin_witness :
  In (mkBuild "B1" "http://bb/#/builders/1/builds/42" "abc" "main" None)
     (snd (collect_builds env_example (mkConfig ["main"] None) api_no_state)) /\
  exists br c cs bd,
    In br (branches (mkConfig ["main"] None)) /\ api_changes api_no_state br = c :: cs /\
    In bd (filter_builders (builder_filter (mkConfig ["main"] None))
             (api_builders api_no_state)) /\
    name (mkBuild "B1" "http://bb/#/builders/1/builds/42" "abc" "main" None) = bname bd /\
    branch (mkBuild "B1" "http://bb/#/builders/1/builds/42" "abc" "main" None)
      = ss_branch c /\
    commit (mkBuild "B1" "http://bb/#/builders/1/builds/42" "abc" "main" None)
      = ss_revision c.
Proof.
  assert (H : In (mkBuild "B1" "http://bb/#/builders/1/builds/42" "abc" "main" None)
     (snd (collect_builds env_example (mkConfig ["main"] None) api_no_state)))
    by (vm_compute; left; reflexivity).
  split; [exact H|]. exact (collect_rows_origin env_example (mkConfig ["main"] None) api_no_state _ H).
Defined.

(** X6: the rows of a branch list [l1 ++ l2] are those of [l1] followed by
    those of [l2]; in particular a branch configured twice contributes its
    rows twice. *)
Theorem collect_rows_app (env : Env) (l1 l2 : list string)
    (bf : option (list string)) (api : Api) :
  snd (collect_builds env (mkConfig (app l1 l2) bf) api)
  = app (snd (collect_builds env (mkConfig l1 bf) api))
        (snd (collect_builds env (mkConfig l2 bf) api)).
Proof. rewrite !collect_builds_eq. simpl. by rewrite map_app, concat_app. Qed.

(** X7: when the filtered roster is empty (no builders returned, or an
    allow-list that names none of them) the run sends no mail, prints its
    message and ends normally. *)
Theorem main_empty_roster (env : Env) (cfg : Config) (api : Api) :
  filter_builders (builder_filter cfg) (api_builders api) = [] ->
  count_sendmail (trace (main env cfg api)) = 0 /\
  exit_ok (main env cfg api) = true /\
  last (trace (main env cfg api)) = Some (Print coffee).
Proof.
  intros H.
  assert (snd (collect_builds env cfg api) = []) as HB.
  { rewrite collect_builds_eq. simpl. rewrite H.
    induction (branches cfg) as [|br brs IH]; [done|]. simpl.
    unfold branch_rows at 1. destruct (api_changes api br); [done|].
    rewrite join_concat. simpl. done. }
  pose proof (collect_builds_no_sendmail env cfg api) as Hc.
  unfold main. destruct (collect_builds env cfg api) as [tr B]. simpl in *. subst B.
  simpl. rewrite count_sendmail_app, Hc, last_snoc. done.
Qed.

Lemma main_empty_roster_witness :
  let api := mkApi [mkBuilder 1 "B1"]
               (fun _ => [mkChange "main" "abc" [mkBuildRec 1 (Some 42%Z) (Some "failed")]]) in
  filter_builders (Some ["other"]) (api_builders api) = [] /\
  exit_ok (main env_example (mkConfig ["main"] (Some ["other"])) api) = true.
Proof.
  split; [reflexivity|].
  apply (main_empty_roster env_example (mkConfig ["main"] (Some ["other"]))).
  reflexivity.
Defined.

(** ** The HTML document keeps every row once *)

Lemma group_append_concat (k : string) (b : Build) (g : grouping) :
  Permutation (List.concat (map snd (group_append k b g)))
              (app (List.concat (map snd g)) [b]).
Proof.
  induction g as [|[k' l] g IH]; [done|]. cbn [group_append].
  destruct (String.eqb k k'); cbn [map snd List.concat].
  - rewrite <- !app_assoc. apply Permutation_app_head. apply Permutation_app_comm.
  - rewrite IH. by rewrite app_assoc.
Qed.

Lemma group_concat (builds : list Build) :
  Permutation (List.concat (map snd (group_by_branch builds))) builds.
Proof.
  induction builds as [|b builds IH] using rev_ind; [done|].
  rewrite group_by_branch_snoc, group_append_concat, IH. done.
Qed.

Lemma group_get_keys (g : grouping) :
  List.NoDup (map fst g) -> map (fun k => group_get k g) (map fst g) = map snd g.
Proof.
  induction g as [|[k l] g IH]; intros Hnd; [done|].
  simpl in Hnd. apply NoDup_cons_iff in Hnd as [Hk Hnd]. simpl.
  rewrite String.eqb_refl. f_equal. rewrite <- IH by done.
  apply map_ext_in. intros k' Hk'. simpl.
  destruct (String.eqb_spec k' k) as [->|]; [done|]. reflexivity.
Qed.

Lemma Permutation_concat_map {A B} (f : A -> list B) (l l' : list A) :
  Permutation l l' -> Permutation (List.concat (map f l)) (List.concat (map f l')).
Proof.
  induction 1; simpl.
  - done.
  - by apply Permutation_app_head.
  - rewrite !app_assoc. apply Permutation_app_tail. apply Permutation_app_comm.
  - by etrans.
Qed.

Lemma concat_map_sorted (g : grouping) (ks : list string) :
  Permutation (List.concat (map (fun k => sort_by_name (group_get k g)) ks))
              (List.concat (map (fun k => group_get k g) ks)).
Proof.
  induction ks as [|k ks IH]; simpl; [done|].
  apply Permutation_app; [apply py_sorted_perm | done].
Qed.

(** X8: the sections of the HTML document hold, all together, exactly the
    rows given: no row is dropped or repeated. *)
Theorem html_sections_rows (builds : list Build) :
  Permutation (List.concat (map snd (html_sections builds))) builds.
Proof.
  unfold html_sections. rewrite map_map. simpl.
  rewrite concat_map_sorted.
  rewrite (Permutation_concat_map _ _ _ (py_sorted_rev_perm String.ltb _)).
  destruct (group_keys builds) as [Hnd _].
  rewrite group_get_keys by done.
  apply group_concat.
Qed.

(** ** CSV fields can be read back *)

Lemma csv_read_quoted_double (s : string) :
  csv_read_quoted (csv_double_quotes s +:+ dq) = Some s.
Proof.
  induction s as [|c s IH]; [reflexivity|].
  cbn [csv_double_quotes].
  destruct (nat_of_ascii c =? 34)%nat eqn:E; rewrite !sappend_cons;
    cbn [csv_read_quoted]; rewrite E, IH; reflexivity.
Qed.

(** X9: a field written by the CSV writer reads back as the original
    string (quoted fields have their doubled quote characters undone), so
    two different values are never written as the same field. *)
Theorem csv_field_roundtrip (s : string) :
  csv_read_field (csv_field s) = Some s /\
  (forall s', csv_field s = csv_field s' -> s = s').
Proof.
  assert (H : forall s, csv_read_field (csv_field s) = Some s).
  { clear s. intros s. unfold csv_field.
    destruct (str_existsb csv_special s) eqn:E.
    - unfold dq at 1. rewrite sappend_cons, sappend_nil_l.
      cbn [csv_read_field]. rewrite Ascii.nat_ascii_embedding by lia. simpl.
      apply csv_read_quoted_double.
    - destruct s as [|c r]; [done|]. cbn [csv_read_field].
      destruct (nat_of_ascii c =? 34)%nat eqn:Ec; [|done].
      cbn [str_existsb] in E. unfold csv_special in E.
      rewrite Ec in E. simpl in E. rewrite orb_true_r in E. discriminate E. }
  split; [apply H|]. intros s' Heq.
  pose proof (H s) as H1. pose proof (H s') as H2. rewrite Heq in H1. congruence.
Qed.

(** ** load_config *)

(** X10: [load_config] fetches its argument over HTTP exactly when it
    starts with [http://] or [https://] (case-sensitively, so
    [HTTPS://...] is opened as a local file); a fetched document with a
    4xx or 5xx status raises [HTTPError], any other status hands its text
    to the YAML parser; a file's contents are handed to the parser. *)
Theorem load_config_dispatch (fetch : string -> HttpResponse)
    (read_file : string -> string) (loc rest : string) :
  match load_config fetch read_file loc with
  | ParseYaml FromFile t =>
      t = read_file loc /\ String.prefix "http://" loc = false /\
      String.prefix "https://" loc = false
  | ParseYaml FromUrl t =>
      t = text (fetch loc) /\
      (String.prefix "http://" loc = true \/ String.prefix "https://" loc = true) /\
      ~ (400 <= status_code (fetch loc) < 600)%Z
  | HTTPErrorRaised c =>
      c = status_code (fetch loc) /\
      (String.prefix "http://" loc = true \/ String.prefix "https://" loc = true) /\
      (400 <= c < 600)%Z
  end /\
  load_config fetch read_file ("HTTPS://" +:+ rest)
    = ParseYaml FromFile (read_file ("HTTPS://" +:+ rest)) /\
  load_config fetch read_file ("HTTP://" +:+ rest)
    = ParseYaml FromFile (read_file ("HTTP://" +:+ rest)).
Proof.
  split; [|split; reflexivity].
  unfold load_config.
  destruct (String.prefix "http://" loc) eqn:E1, (String.prefix "https://" loc) eqn:E2;
    simpl; try (repeat split; auto; fail);
    unfold raise_for_status; destruct (fetch loc) as [code t]; simpl;
    destruct (400 <=? code)%Z eqn:C1, (code <? 600)%Z eqn:C2; simpl;
    repeat split; auto; lia.
Qed.

(** ** The classifier is stable *)

(** X11: classifying the rows the classifier reported gives them back
    unchanged: a reported row is reported again. *)
Theorem failed_builds_idempotent (rows out : list Build) :
  failed_builds rows = Some out -> failed_builds out = Some out.
Proof.
  revert out. induction rows as [|r rows IH]; intros out H; simpl in H.
  - by injection H as <-.
  - destruct (status r) as [s|] eqn:Hs; [|done].
    match type of H with context [if ?e then _ else _] => destruct e eqn:E end;
      [by apply IH|].
    destruct (failed_builds rows) as [out'|] eqn:Hr; simpl in H; [|done].
    injection H as <-. simpl. rewrite Hs, E, (IH out') by done. reflexivity.
Qed.

Lemma failed_builds_idempotent_witness :
  failed_builds sample_rows = Some (List.filter spec_reported sample_rows) /\
  failed_builds (List.filter spec_reported sample_rows)
    = Some (List.filter spec_reported sample_rows).
Proof.
  assert (H : failed_builds sample_rows = Some (List.filter spec_reported sample_rows))
    by (vm_compute; reflexivity).
  split; [exact H|]. exact (failed_builds_idempotent _ _ H).
Defined.

(** ** The report mail *)

Lemma failed_builds_sublist (rows out : list Build) :
  failed_builds rows = Some out -> out `sublist_of` rows.
Proof.
  revert out. induction rows as [|r rows IH]; intros out H; simpl in H.
  - injection H as <-. constructor.
  - destruct (status r) as [s|]; [|done].
    match type of H with context [if ?e then _ else _] => destruct e end.
    + apply sublist_cons. by apply IH.
    + destruct (failed_builds rows) as [out'|] eqn:Hr; simpl in H; [|done].
      injection H as <-. apply sublist_skip. by apply IH.
Qed.

(** X12: when the classifier reports at least one row, the run ends
    normally and its last effect is one mail, sent through the relay and
    port of the environment from [SENDER] to [RECIPIENT_EMAIL] with
    subject [SUBJECT], whose HTML part and CSV attachment are built from
    the reported rows, and these rows are a subsequence of the rows
    collected from the branches. *)
Theorem main_mail_contents (env : Env) (cfg : Config) (api : Api) (out : list Build)
    (Hfail : failed_builds (snd (collect_builds env cfg api)) = Some out)
    (Hne : out <> []) :
  exit_ok (main env cfg api) = true /\
  exists m,
    trace (main env cfg api)
      = app (fst (collect_builds env cfg api))
            [SmtpSendmail (SMTP_RELAY_SERVER env) (SMTP_RELAY_PORT env)
                          (SENDER env) (RECIPIENT_EMAIL env) m] /\
    hdr_from m = SENDER env /\ hdr_to m = RECIPIENT_EMAIL env /\
    hdr_subject m = SUBJECT env /\
    html_part m = builds_to_html_table out /\
    attachment_data m = builds_to_csv out /\
    out `sublist_of` snd (collect_builds env cfg api).
Proof.
  pose proof (failed_builds_sublist _ _ Hfail) as Hsub.
  unfold main. destruct (collect_builds env cfg api) as [tr rows]. simpl in *.
  rewrite Hfail. destruct out as [|o out]; [done|].
  split; [reflexivity|]. eexists. split; [reflexivity|].
  repeat split; done.
Qed.

Lemma main_mail_contents_witness :
  let api := mkApi [mkBuilder 1 "B1"]
               (fun _ => [mkChange "main" "abc" [mkBuildRec 1 (Some 42%Z) (Some "failed")]]) in
  failed_builds (snd (collect_builds env_example (mkConfig ["main"] None) api))
    = Some [mkBuild "B1" "http://bb/#/builders/1/builds/42" "abc" "main" (Some "failed")] /\
  exit_ok (main env_example (mkConfig ["main"] None) api) = true.
Proof.
  intros api.
  assert (H : failed_builds (snd (collect_builds env_example (mkConfig ["main"] None) api))
    = Some [mkBuild "B1" "http://bb/#/builders/1/builds/42" "abc" "main" (Some "failed")])
    by (vm_compute; reflexivity).
  split; [exact H|].
  exact (proj1 (main_mail_contents env_example (mkConfig ["main"] None) api _ H
                  ltac:(discriminate))).
Defined.
